(** * The Mocktioneer bidder adapter

    A shallow embedding of [adapters/mocktioneer] (package [mocktioneer]) and of
    [openrtb_ext.ExtMocktioneer], with the properties of its request builder
    ([MakeRequests], [getHeaders]) and of its response mapper ([MakeBids],
    [mediaTypeForImp]).

    Go values are embedded as follows:
    - [string] is a Rocq [string] (a sequence of bytes);
    - [[]byte] and [json.RawMessage] are [option string], [None] being the nil
      slice;
    - [float64] is the kernel's binary64 [float], so that [ext.Bid != 0] is the
      IEEE comparison;
    - [int] is [Z] (no arithmetic is performed on it);
    - a pointer to a struct that is only tested against nil is an [option];
    - a slice is a [list], [nil] and the empty slice both being [[]];
    - [http.Header] is a finite map from keys to the list of their values;
    - a function returning [(T, error)] returns [error + T]; a function that
      mutates its argument returns the mutated argument next to its results. *)

From Stdlib Require Import Floats.
From stdpp Require Import base option list strings gmap fin_maps pretty.

Open Scope string_scope.
Open Scope list_scope.

(** ** Errors *)

(** [errortypes.BadInput], [errortypes.BadServerResponse], and the errors that
    the collaborators (encoding/json, jsonutil, macros, text/template) return,
    which the adapter passes on or drops without looking inside. *)
Inductive error : Type :=
  | BadInput (Message : string)
  | BadServerResponse (Message : string)
  | CollaboratorError (Message : string).

Definition error_Message (e : error) : string :=
  match e with
  | BadInput m | BadServerResponse m | CollaboratorError m => m
  end.

#[global] Instance error_eq_dec : EqDecision error.
Proof. solve_decision. Defined.

(** [[]byte], [json.RawMessage]. *)
Definition bytes : Type := option string.

(** ** The OpenRTB objects the adapter touches

    Each struct lists the fields the adapter reads or writes, and a few of the
    others to stand for what it must leave alone. *)

Module Video.
Record t : Type := mk { MIMEs : list string; W : Z; H : Z }.
End Video.

Module Native.
Record t : Type := mk { Request : string; Ver : string }.
End Native.

Module Device.
Record t : Type := mk { UA : string; IP : string; IPv6 : string; Make : string }.
End Device.

Module Imp.
Record t : Type := mk {
  ID : string;
  Video : option Video.t;
  Native : option Native.t;
  TagID : string;
  Ext : bytes
}.

(** [imp.Ext = ext] *)
Definition set_Ext (ext : bytes) (imp : t) : t :=
  mk (ID imp) (Video imp) (Native imp) (TagID imp) ext.
End Imp.

Module BidRequest.
Record t : Type := mk {
  ID : string;
  Imp : list Imp.t;
  Device : option Device.t;
  TMax : Z
}.

Definition set_Imp (imps : list Imp.t) (req : t) : t :=
  mk (ID req) imps (Device req) (TMax req).
End BidRequest.

Module Bid.
Record t : Type := mk { ID : string; ImpID : string; Price : float; AdM : string }.
End Bid.

Module SeatBid.
Record t : Type := mk { Bid : list Bid.t; Seat : string }.
End SeatBid.

Module BidResponse.
Record t : Type := mk { ID : string; SeatBid : list SeatBid.t; Cur : string }.
End BidResponse.

(** ** [openrtb_ext] *)

(** [openrtb_ext.ExtMocktioneer]: the contract of [imp.ext.bidder]. *)
Module ExtMocktioneer.
Record t : Type := mk { Endpoint : string; Bid : float }.
End ExtMocktioneer.

Inductive BidType : Type := BidTypeBanner | BidTypeVideo | BidTypeNative.

#[global] Instance BidType_eq_dec : EqDecision BidType.
Proof. solve_decision. Defined.

(** Modelled from the spec: [openrtb_ext.GetImpIDs], which is not part of the
    sources at hand; "the list of line-item IDs it covers", in the order of
    the line items. *)
Definition GetImpIDs (imps : list Imp.t) : list string := map Imp.ID imps.

(** ** [adapters] *)

(** [adapters.ExtImpBidder]: the wrapper of the bidder parameters; the adapter
    reads its [bidder] member only. *)
Module ExtImpBidder.
Record t : Type := mk { Bidder : bytes }.
End ExtImpBidder.

Abbreviation Header := (gmap string (list string)).

(** [h.Add(key, value)]: appends to the values of [key]. Every key the adapter
    uses is written in its canonical form, under which it is stored. *)
Definition Header_Add (key value : string) (h : Header) : Header :=
  <[key := default [] (h !! key) ++ [value]]> h.

Module RequestData.
Record t : Type := mk {
  Method : string;
  Uri : string;
  Body : bytes;
  Headers : Header;
  ImpIDs : list string
}.
End RequestData.

Module ResponseData.
Record t : Type := mk { StatusCode : Z; Body : bytes }.
End ResponseData.

Module TypedBid.
Record t : Type := mk { Bid : Bid.t; BidType : BidType }.
End TypedBid.

Module BidderResponse.
Record t : Type := mk { Currency : string; Bids : list TypedBid.t }.

Definition set_Currency (cur : string) (br : t) : t := mk cur (Bids br).
Definition set_Bids (bids : list TypedBid.t) (br : t) : t := mk (Currency br) bids.
End BidderResponse.

Definition http_MethodPost : string := "POST".
Definition http_StatusOK : Z := 200.
Definition http_StatusNoContent : Z := 204.

(** ** The external collaborators

    The template engine, the macro resolver and the JSON codecs are not part
    of the adapter: it is verified for whatever they compute. *)
Record Collaborators : Type := {
  (** [*template.Template] and [template.New(name).Parse(text)] *)
  Template : Type;
  template_Parse : string -> error + Template;
  (** [macros.EndpointTemplateParams], its zero value, [macros.ResolveMacros] *)
  EndpointTemplateParams : Type;
  EndpointTemplateParams_zero : EndpointTemplateParams;
  macros_ResolveMacros : Template -> EndpointTemplateParams -> error + string;
  (** [jsonutil.Unmarshal] at the three types it is used at *)
  jsonutil_Unmarshal_ExtImpBidder : bytes -> error + ExtImpBidder.t;
  jsonutil_Unmarshal_ExtMocktioneer : bytes -> error + ExtMocktioneer.t;
  jsonutil_Unmarshal_BidResponse : bytes -> error + BidResponse.t;
  (** [json.Marshal] of a [float64]: its text, or an error for a value JSON
      cannot express *)
  json_Marshal_float64 : float -> error + string;
  (** [json.Marshal] of the whole auction request *)
  json_Marshal_BidRequest : BidRequest.t -> error + string;
  (** the currency of a fresh [adapters.BidderResponse] *)
  adapters_defaultCurrency : string
}.

(** Modelled from the spec: [adapters.NewBidderResponseWithBidsCapacity],
    which is not part of the sources at hand; a result with "the result's
    default currency" and no bid yet (the capacity is not observable). *)
Definition NewBidderResponseWithBidsCapacity (C : Collaborators) (capacity : nat)
  : BidderResponse.t :=
  BidderResponse.mk (adapters_defaultCurrency C) [].

(** ** The payload sent upstream *)

(** The double quote, byte 34. *)
Definition dquote : string := String (Ascii.ascii_of_nat 34) EmptyString.

(** A JSON object with the one member [key]. *)
Definition json_object1 (key value : string) : string :=
  "{" +:+ dquote +:+ key +:+ dquote +:+ ":" +:+ value +:+ "}".

Module upstreamExtMock.
(** [Bid float64 `json:"bid,omitempty"`] *)
Record t : Type := mk { Bid : float }.
End upstreamExtMock.

Module upstreamExt.
(** [Mocktioneer *upstreamExtMock `json:"mocktioneer,omitempty"`] *)
Record t : Type := mk { Mocktioneer : option upstreamExtMock.t }.
End upstreamExt.

(** [json.Marshal] at the two local struct types, read off their field tags:
    a member tagged [omitempty] is left out when it is zero (nil, for the
    pointer), and the encoding fails when the encoding of the number does.
    [MakeRequests] encodes bids that differ from zero only, for which the
    member is never left out. *)
Definition json_Marshal_upstreamExtMock (C : Collaborators) (m : upstreamExtMock.t)
  : error + string :=
  if (upstreamExtMock.Bid m =? 0)%float then inr "{}"
  else match json_Marshal_float64 C (upstreamExtMock.Bid m) with
       | inl err => inl err
       | inr num => inr (json_object1 "bid" num)
       end.

Definition json_Marshal_upstreamExt (C : Collaborators) (ue : upstreamExt.t)
  : error + bytes :=
  match upstreamExt.Mocktioneer ue with
  | None => inr (Some "{}")
  | Some m =>
      match json_Marshal_upstreamExtMock C m with
      | inl err => inl err
      | inr obj => inr (Some (json_object1 "mocktioneer" obj))
      end
  end.

(** ** Package [mocktioneer] *)

Module adapter.
Record t (C : Collaborators) : Type := mk { endpoint : Template C }.
Arguments mk {C} _.
Arguments endpoint {C} _.
End adapter.

(** [len(s) > 0] *)
Definition nonempty (s : string) : bool := (0 <? String.length s)%nat.

Section Mocktioneer.
Context (C : Collaborators).

(** [Builder]: a default endpoint when none is configured, parsed as a
    template. *)
Definition Builder (cfg_Endpoint : string) : error + adapter.t C :=
  let endpoint :=
    if String.eqb cfg_Endpoint "" then
      "https://mocktioneer.edgecompute.app/openrtb2/auction"
    else cfg_Endpoint in
  match template_Parse C endpoint with
  | inl err =>
      inl (CollaboratorError
             ("unable to parse endpoint url template: " +:+ error_Message err))
  | inr tmpl => inr (adapter.mk tmpl)
  end.

Definition getHeaders (req : BidRequest.t) : Header :=
  let h : Header := ∅ in
  let h := Header_Add "Content-Type" "application/json;charset=utf-8" h in
  let h := Header_Add "Accept" "application/json" h in
  let h := Header_Add "X-Openrtb-Version" "2.5" h in
  match BidRequest.Device req with
  | Some dev =>
      let h := if nonempty (Device.UA dev)
               then Header_Add "User-Agent" (Device.UA dev) h else h in
      let h := if nonempty (Device.IPv6 dev)
               then Header_Add "X-Forwarded-For" (Device.IPv6 dev) h else h in
      let h := if nonempty (Device.IP dev)
               then Header_Add "X-Forwarded-For" (Device.IP dev) h else h in
      h
  | None => h
  end.

(** [parseImpExt]: on success the pointer it returns is never nil. *)
Definition parseImpExt (imp : Imp.t) : error + ExtMocktioneer.t :=
  match jsonutil_Unmarshal_ExtImpBidder C (Imp.Ext imp) with
  | inl _ => inl (BadInput "ext.bidder not provided")
  | inr bidderExt =>
      match jsonutil_Unmarshal_ExtMocktioneer C (ExtImpBidder.Bidder bidderExt) with
      | inl _ => inl (BadInput "ext.bidder not provided")
      | inr ext => inr ext
      end
  end.

(** The body of the loop of [MakeRequests] over the line items, on the line
    item it is at; when the payload cannot be encoded the extension is left
    as it is. *)
Definition rewriteImpExt (imp : Imp.t) : Imp.t :=
  match parseImpExt imp with
  | inr ext =>
      if negb (ExtMocktioneer.Bid ext =? 0)%float then
        let ue := upstreamExt.mk (Some (upstreamExtMock.mk (ExtMocktioneer.Bid ext))) in
        match json_Marshal_upstreamExt C ue with
        | inr raw => Imp.set_Ext raw imp
        | inl _ => imp
        end
      else Imp.set_Ext None imp
  | inl _ => Imp.set_Ext None imp
  end.

(** [for i := range ortbReq.Imp { ... ortbReq.Imp[i].Ext = ... }]: the line
    items are updated in place, one index after the other. *)
Definition rewriteImps (imps : list Imp.t) : list Imp.t :=
  foldl (fun (imps : list Imp.t) (i : nat) =>
           match imps !! i with
           | Some imp => <[i := rewriteImpExt imp]> imps
           | None => imps
           end)
        imps (seq 0 (length imps)).

(** [MakeRequests]: the auction request as the call leaves it, then the two
    results. *)
Definition MakeRequests (a : adapter.t C) (ortbReq : BidRequest.t)
  : BidRequest.t * (list RequestData.t * list error) :=
  let endpointURL :=
    match BidRequest.Imp ortbReq with
    | imp0 :: _ =>
        match parseImpExt imp0 with
        | inr ext =>
            if nonempty (ExtMocktioneer.Endpoint ext)
            then ExtMocktioneer.Endpoint ext else ""
        | inl _ => ""
        end
    | [] => ""
    end in
  let ortbReq := BidRequest.set_Imp (rewriteImps (BidRequest.Imp ortbReq)) ortbReq in
  match (if String.eqb endpointURL ""
         then macros_ResolveMacros C (adapter.endpoint a) (EndpointTemplateParams_zero C)
         else inr endpointURL) with
  | inl err => (ortbReq, ([], [err]))
  | inr endpointURL =>
      match json_Marshal_BidRequest C ortbReq with
      | inl err => (ortbReq, ([], [err]))
      | inr body =>
          let req := RequestData.mk http_MethodPost endpointURL (Some body)
                       (getHeaders ortbReq) (GetImpIDs (BidRequest.Imp ortbReq)) in
          (ortbReq, ([req], []))
      end
  end.

Definition mediaTypeForImp (impID : string) : list Imp.t -> BidType :=
  fix scan (imps : list Imp.t) : BidType :=
    match imps with
    | [] => BidTypeBanner
    | imp :: imps' =>
        if String.eqb (Imp.ID imp) impID then
          match Imp.Video imp, Imp.Native imp with
          | Some _, _ => BidTypeVideo
          | None, Some _ => BidTypeNative
          | None, None => BidTypeBanner
          end
        else scan imps'
    end.

(** [MakeBids]. The loop variable [b] is a fresh variable at each iteration
    (the semantics of Go 1.22 and later), so that [&b] in a typed bid is
    the bid of its own iteration: a typed bid holds that bid. *)
Definition MakeBids (ortbReq : BidRequest.t) (reqToBidder : RequestData.t)
    (respData : ResponseData.t) : option BidderResponse.t * list error :=
  if (ResponseData.StatusCode respData =? http_StatusNoContent)%Z then (None, [])
  else if negb (ResponseData.StatusCode respData =? http_StatusOK)%Z then
    (None, [BadServerResponse
              ("unexpected status: " +:+ pretty (ResponseData.StatusCode respData))])
  else
    match jsonutil_Unmarshal_BidResponse C (ResponseData.Body respData) with
    | inl _ => (None, [BadServerResponse "invalid JSON"])
    | inr bidResp =>
        match BidResponse.SeatBid bidResp with
        | [] => (None, [BadServerResponse "empty seatbid"])
        | sb :: _ =>
            let br := NewBidderResponseWithBidsCapacity C 5 in
            let br := if negb (String.eqb (BidResponse.Cur bidResp) "")
                      then BidderResponse.set_Currency (BidResponse.Cur bidResp) br
                      else br in
            let br :=
              foldl (fun (br : BidderResponse.t) (b : Bid.t) =>
                       BidderResponse.set_Bids
                         (BidderResponse.Bids br ++
                            [TypedBid.mk b
                               (mediaTypeForImp (Bid.ImpID b) (BidRequest.Imp ortbReq))])
                         br)
                    br (SeatBid.Bid sb) in
            (Some br, [])
        end
    end.

End Mocktioneer.

(** ** What is assumed of the JSON codecs

    JSON has no literal for a NaN or an infinity, so a decoded [bid] is a
    finite number; and [json.Marshal] refuses a [float64] only when it is a
    NaN or an infinity. *)
Definition json_numbers_finite (C : Collaborators) : Prop :=
  (forall raw ext,
      jsonutil_Unmarshal_ExtMocktioneer C raw = inr ext ->
      is_finite (ExtMocktioneer.Bid ext) = true) /\
  (forall f, is_finite f = true -> exists num, json_Marshal_float64 C f = inr num).

(** The payload of the claims, [{"mocktioneer":{"bid":num}}], written out. *)
Definition minimal_payload (num : string) : bytes :=
  Some ("{" +:+ dquote +:+ "mocktioneer" +:+ dquote +:+ ":{"
            +:+ dquote +:+ "bid" +:+ dquote +:+ ":" +:+ num +:+ "}}").

(** The extension a line item is specified to leave with. *)
Inductive ext_shape (C : Collaborators) (imp : Imp.t) (after : bytes) : Prop :=
  | shape_passthrough (ext : ExtMocktioneer.t) (num : string) :
      parseImpExt C imp = inr ext ->
      (ExtMocktioneer.Bid ext =? 0)%float = false ->
      json_Marshal_float64 C (ExtMocktioneer.Bid ext) = inr num ->
      after = minimal_payload num ->
      ext_shape C imp after
  | shape_cleared_zero (ext : ExtMocktioneer.t) :
      parseImpExt C imp = inr ext ->
      (ExtMocktioneer.Bid ext =? 0)%float = true ->
      after = None ->
      ext_shape C imp after
  | shape_cleared_unparsed (err : error) :
      parseImpExt C imp = inl err ->
      after = None ->
      ext_shape C imp after.

(** ** The behaviour the specification describes

    Written after the specification, to be compared with the code above. *)

(** The endpoint override of the request: the non-empty [Endpoint] of the
    parsed extension of the first line item. *)
Definition endpoint_override (C : Collaborators) (req : BidRequest.t) : option string :=
  match BidRequest.Imp req with
  | imp0 :: _ =>
      match parseImpExt C imp0 with
      | inr ext =>
          if nonempty (ExtMocktioneer.Endpoint ext)
          then Some (ExtMocktioneer.Endpoint ext) else None
      | inl _ => None
      end
  | [] => None
  end.

(** The resolution order of the endpoint: the override verbatim, else the
    configured template expanded with no parameter. *)
Definition resolved_url (C : Collaborators) (a : adapter.t C) (req : BidRequest.t)
  : error + string :=
  match endpoint_override C req with
  | Some url => inr url
  | None => macros_ResolveMacros C (adapter.endpoint a) (EndpointTemplateParams_zero C)
  end.

(** The forwarded-for entries of a device: the IPv6 address, then the IPv4
    address, each when present. *)
Definition forwarded_for (dev : Device.t) : list string :=
  (if nonempty (Device.IPv6 dev) then [Device.IPv6 dev] else []) ++
  (if nonempty (Device.IP dev) then [Device.IP dev] else []).

(** The media type a line item asks for. *)
Definition media_type_of (imp : Imp.t) : BidType :=
  match Imp.Video imp, Imp.Native imp with
  | Some _, _ => BidTypeVideo
  | None, Some _ => BidTypeNative
  | None, None => BidTypeBanner
  end.

(** The media type of a bid: that of the line item with its ID (the first
    one, should the ID occur more than once), banner when there is none. *)
Definition media_type_spec (impID : string) (imps : list Imp.t) : BidType :=
  match List.find (fun imp => String.eqb (Imp.ID imp) impID) imps with
  | Some imp => media_type_of imp
  | None => BidTypeBanner
  end.

(** The typed bids of a seat: one per bid, in the order of the seat. *)
Definition typed_bids (req : BidRequest.t) (sb : SeatBid.t) : list TypedBid.t :=
  map (fun b => TypedBid.mk b (media_type_spec (Bid.ImpID b) (BidRequest.Imp req)))
      (SeatBid.Bid sb).

(** The decoding step of the response mapper, on the body of a 200. *)
Definition decode_step (C : Collaborators) (req : BidRequest.t) (body : bytes)
  : option BidderResponse.t * list error :=
  match jsonutil_Unmarshal_BidResponse C body with
  | inl _ => (None, [BadServerResponse "invalid JSON"])
  | inr bidResp =>
      match BidResponse.SeatBid bidResp with
      | [] => (None, [BadServerResponse "empty seatbid"])
      | sb :: _ =>
          (Some (BidderResponse.mk
                   (if String.eqb (BidResponse.Cur bidResp) ""
                    then adapters_defaultCurrency C else BidResponse.Cur bidResp)
                   (typed_bids req sb)),
           [])
      end
  end.

(** The typed bids of a result of [MakeBids]. *)
Definition result_bids (res : option BidderResponse.t * list error) : list TypedBid.t :=
  match res.1 with
  | Some br => BidderResponse.Bids br
  | None => []
  end.

(** ** A test double of the collaborators

    Templates without placeholders, and codecs that know the byte strings of
    the examples below. *)
Module Fixture.

Definition quoted (s : string) : string := dquote +:+ s +:+ dquote.

Definition override_url : string := "https://override.example/auction".

(** [{"bid":5.5}] and [{"bidder":{"bid":5.5}}] *)
Definition params_bid : string := json_object1 "bid" "5.5".
Definition ext_bid : string := json_object1 "bidder" params_bid.

(** [{"endpoint":"https://override.example/auction"}] and its wrapper *)
Definition params_endpoint : string := json_object1 "endpoint" (quoted override_url).
Definition ext_endpoint : string := json_object1 "bidder" params_endpoint.

(** [{}] and [{"bidder":{}}] *)
Definition ext_empty : string := json_object1 "bidder" "{}".

Definition decode_error : error := CollaboratorError "cannot decode".

Definition unmarshal_ExtImpBidder (data : bytes) : error + ExtImpBidder.t :=
  match data with
  | Some s =>
      if String.eqb s ext_bid then inr (ExtImpBidder.mk (Some params_bid))
      else if String.eqb s ext_endpoint then inr (ExtImpBidder.mk (Some params_endpoint))
      else if String.eqb s ext_empty then inr (ExtImpBidder.mk (Some "{}"))
      else inl decode_error
  | None => inl decode_error
  end.

Definition unmarshal_ExtMocktioneer (data : bytes) : error + ExtMocktioneer.t :=
  match data with
  | Some s =>
      if String.eqb s params_bid then inr (ExtMocktioneer.mk "" 5.5%float)
      else if String.eqb s params_endpoint then inr (ExtMocktioneer.mk override_url 0%float)
      else if String.eqb s "{}" then inr (ExtMocktioneer.mk "" 0%float)
      else inl decode_error
  | None => inl decode_error
  end.

Definition marshal_float64 (f : float) : error + string :=
  if is_finite f then
    inr (if (f =? 5.5)%float then "5.5" else if (f =? 1)%float then "1" else "0")
  else inl (CollaboratorError "json: unsupported value").

Definition bid1 : Bid.t := Bid.mk "b1" "imp-video" 1%float "<vast/>".
Definition bid2 : Bid.t := Bid.mk "b2" "imp-banner" 5.5%float "<div/>".
Definition bid3 : Bid.t := Bid.mk "b3" "imp-native" 1%float "{}".
Definition bid4 : Bid.t := Bid.mk "b4" "imp-unknown" 1%float "<div/>".

(** A response with two seats, and one with none. *)
Definition two_seats : BidResponse.t :=
  BidResponse.mk "r1"
    [SeatBid.mk [bid1; bid2; bid3] "first"; SeatBid.mk [bid4] "second"] "EUR".
Definition no_seat : BidResponse.t := BidResponse.mk "r2" [] "".

Definition unmarshal_BidResponse (data : bytes) : error + BidResponse.t :=
  match data with
  | Some s =>
      if String.eqb s "two seats" then inr two_seats
      else if String.eqb s "no seat" then inr no_seat
      else inl decode_error
  | None => inl decode_error
  end.

Definition collaborators : Collaborators := {|
  Template := string;
  template_Parse := fun text => inr text;
  EndpointTemplateParams := unit;
  EndpointTemplateParams_zero := tt;
  macros_ResolveMacros := fun tmpl _ => inr tmpl;
  jsonutil_Unmarshal_ExtImpBidder := unmarshal_ExtImpBidder;
  jsonutil_Unmarshal_ExtMocktioneer := unmarshal_ExtMocktioneer;
  jsonutil_Unmarshal_BidResponse := unmarshal_BidResponse;
  json_Marshal_float64 := marshal_float64;
  json_Marshal_BidRequest := fun req => inr ("request " +:+ BidRequest.ID req);
  adapters_defaultCurrency := "USD"
|}.

(** The same, with a template whose expansion fails and a request encoder
    that fails. *)
Definition failing_macros : Collaborators := {|
  Template := string;
  template_Parse := fun text => inr text;
  EndpointTemplateParams := unit;
  EndpointTemplateParams_zero := tt;
  macros_ResolveMacros := fun _ _ => inl (CollaboratorError "template: no such field");
  jsonutil_Unmarshal_ExtImpBidder := unmarshal_ExtImpBidder;
  jsonutil_Unmarshal_ExtMocktioneer := unmarshal_ExtMocktioneer;
  jsonutil_Unmarshal_BidResponse := unmarshal_BidResponse;
  json_Marshal_float64 := marshal_float64;
  json_Marshal_BidRequest := fun req => inr ("request " +:+ BidRequest.ID req);
  adapters_defaultCurrency := "USD"
|}.

Definition failing_encoder : Collaborators := {|
  Template := string;
  template_Parse := fun text => inr text;
  EndpointTemplateParams := unit;
  EndpointTemplateParams_zero := tt;
  macros_ResolveMacros := fun tmpl _ => inr tmpl;
  jsonutil_Unmarshal_ExtImpBidder := unmarshal_ExtImpBidder;
  jsonutil_Unmarshal_ExtMocktioneer := unmarshal_ExtMocktioneer;
  jsonutil_Unmarshal_BidResponse := unmarshal_BidResponse;
  json_Marshal_float64 := marshal_float64;
  json_Marshal_BidRequest := fun _ => inl (CollaboratorError "json: unsupported value");
  adapters_defaultCurrency := "USD"
|}.

Definition the_adapter : adapter.t collaborators :=
  adapter.mk (C := collaborators) "https://configured.example/auction".

Definition video : Video.t := Video.mk ["video/mp4"] 640 480.
Definition native : Native.t := Native.mk "{}" "1.2".
Definition device : Device.t := Device.mk "Mozilla/5.0" "192.0.2.1" "2001:db8::1" "Acme".

Definition imp_video : Imp.t := Imp.mk "imp-video" (Some video) None "t1" (Some ext_bid).
Definition imp_banner : Imp.t := Imp.mk "imp-banner" None None "t2" (Some ext_empty).
Definition imp_native : Imp.t := Imp.mk "imp-native" None (Some native) "t3" None.
Definition imp_override : Imp.t := Imp.mk "imp-o" None None "t4" (Some ext_endpoint).

Definition request : BidRequest.t :=
  BidRequest.mk "auction-1" [imp_video; imp_banner; imp_native] (Some device) 500.
Definition request_override : BidRequest.t :=
  BidRequest.mk "auction-2" [imp_override; imp_video] None 500.
Definition request_empty : BidRequest.t := BidRequest.mk "auction-3" [] None 500.

End Fixture.

(** The endpoint [Builder] parses: the configured one, the built-in one when
    none is configured. *)
Definition effective_endpoint (cfg_Endpoint : string) : string :=
  match cfg_Endpoint with
  | EmptyString => "https://mocktioneer.edgecompute.app/openrtb2/auction"
  | _ => cfg_Endpoint
  end.

(** ** A test double for the edges

    As [Fixture], with a decoder that reads an out-of-range number as an
    infinity, a response whose first seat is empty, and line items that
    share an ID. *)
Module FixtureEdge.

(** [{"bid":1e999}] and [{"bidder":{"bid":1e999}}] *)
Definition params_huge : string := json_object1 "bid" "1e999".
Definition ext_huge : string := json_object1 "bidder" params_huge.

Definition unmarshal_ExtImpBidder (data : bytes) : error + ExtImpBidder.t :=
  match data with
  | Some s =>
      if String.eqb s ext_huge then inr (ExtImpBidder.mk (Some params_huge))
      else Fixture.unmarshal_ExtImpBidder data
  | None => Fixture.unmarshal_ExtImpBidder data
  end.

Definition unmarshal_ExtMocktioneer (data : bytes) : error + ExtMocktioneer.t :=
  match data with
  | Some s =>
      if String.eqb s params_huge then inr (ExtMocktioneer.mk "" infinity)
      else Fixture.unmarshal_ExtMocktioneer data
  | None => Fixture.unmarshal_ExtMocktioneer data
  end.

Definition empty_first_seat : BidResponse.t :=
  BidResponse.mk "r3" [SeatBid.mk [] "first"; SeatBid.mk [Fixture.bid4] "second"] "".

Definition unmarshal_BidResponse (data : bytes) : error + BidResponse.t :=
  match data with
  | Some s =>
      if String.eqb s "empty first seat" then inr empty_first_seat
      else Fixture.unmarshal_BidResponse data
  | None => Fixture.unmarshal_BidResponse data
  end.

Definition collaborators : Collaborators := {|
  Template := string;
  template_Parse := fun text => inr text;
  EndpointTemplateParams := unit;
  EndpointTemplateParams_zero := tt;
  macros_ResolveMacros := fun tmpl _ => inr tmpl;
  jsonutil_Unmarshal_ExtImpBidder := unmarshal_ExtImpBidder;
  jsonutil_Unmarshal_ExtMocktioneer := unmarshal_ExtMocktioneer;
  jsonutil_Unmarshal_BidResponse := unmarshal_BidResponse;
  json_Marshal_float64 := Fixture.marshal_float64;
  json_Marshal_BidRequest := fun req => inr ("request " +:+ BidRequest.ID req);
  adapters_defaultCurrency := "USD"
|}.

Definition the_adapter : adapter.t collaborators :=
  adapter.mk (C := collaborators) "https://configured.example/auction".



(** Two line items with the ID [dup]: a native one, then a video one. *)
Definition imp_dup_native : Imp.t := Imp.mk "dup" None (Some Fixture.native) "t6" None.
Definition imp_dup_video : Imp.t := Imp.mk "dup" (Some Fixture.video) None "t7" None.

End FixtureEdge.

(** ** The request builder *)

Section RequestBuilder.
Context (C : Collaborators).

Lemma eqb_empty_nonempty (s : string) : String.eqb s "" = negb (nonempty s).
Proof. by destruct s. Qed.

(** The in-place loop, started at index [length finished] with [todo] left. *)
Lemma rewrite_loop_from (finished todo : list Imp.t) :
  foldl (fun (imps : list Imp.t) (i : nat) =>
           match imps !! i with
           | Some imp => <[i := rewriteImpExt C imp]> imps
           | None => imps
           end)
        (finished ++ todo) (seq (length finished) (length todo))
  = finished ++ map (rewriteImpExt C) todo.
Proof.
  revert finished. induction todo as [|imp todo IH]; intros finished; [done|].
  cbn [length seq foldl map].
  rewrite list_lookup_middle by done.
  rewrite insert_app_r_alt, Nat.sub_diag by done. cbn [insert list_insert].
  specialize (IH (finished ++ [rewriteImpExt C imp])).
  rewrite length_app, Nat.add_1_r, <- !app_assoc in IH. exact IH.
Qed.

(** The loop rewrites each line item on its own, from its own extension. *)
Lemma rewriteImps_map (imps : list Imp.t) :
  rewriteImps C imps = map (rewriteImpExt C) imps.
Proof. exact (rewrite_loop_from [] imps). Qed.

(** The request as [MakeRequests] leaves it, whatever it returns. *)
Lemma MakeRequests_request (a : adapter.t C) (req : BidRequest.t) :
  (MakeRequests C a req).1
  = BidRequest.set_Imp (map (rewriteImpExt C) (BidRequest.Imp req)) req.
Proof.
  unfold MakeRequests. rewrite rewriteImps_map.
  repeat case_match; reflexivity.
Qed.

Lemma rewriteImpExt_frame (imp : Imp.t) :
  rewriteImpExt C imp = Imp.set_Ext (Imp.Ext (rewriteImpExt C imp)) imp.
Proof.
  unfold rewriteImpExt. repeat case_match; try reflexivity. by destruct imp.
Qed.

Lemma string_app_assoc (s1 s2 s3 : string) :
  (s1 +:+ s2) +:+ s3 = s1 +:+ s2 +:+ s3.
Proof.
  induction s1 as [|c s1 IH]; [done|].
  change (String c ((s1 +:+ s2) +:+ s3) = String c (s1 +:+ s2 +:+ s3)).
  by rewrite IH.
Qed.

Lemma json_Marshal_upstreamExt_bid (f : float) (num : string) :
  (f =? 0)%float = false ->
  json_Marshal_float64 C f = inr num ->
  json_Marshal_upstreamExt C (upstreamExt.mk (Some (upstreamExtMock.mk f)))
  = inr (minimal_payload num).
Proof.
  intros Hnz Hnum. unfold json_Marshal_upstreamExt, json_Marshal_upstreamExtMock.
  cbn [upstreamExt.Mocktioneer upstreamExtMock.Bid]. rewrite Hnz, Hnum.
  unfold minimal_payload, json_object1. do 2 f_equal.
  rewrite !string_app_assoc. reflexivity.
Qed.

Lemma parseImpExt_finite (imp : Imp.t) (ext : ExtMocktioneer.t) :
  json_numbers_finite C ->
  parseImpExt C imp = inr ext ->
  exists num, json_Marshal_float64 C (ExtMocktioneer.Bid ext) = inr num.
Proof.
  intros [Hdec Henc] Hparse. apply Henc. unfold parseImpExt in Hparse.
  repeat case_match; try discriminate. injection Hparse as <-. eauto.
Qed.


Lemma rewriteImpExt_shape (imp : Imp.t) :
  json_numbers_finite C ->
  ext_shape C imp (Imp.Ext (rewriteImpExt C imp)).
Proof.
  intros HJ. unfold rewriteImpExt.
  destruct (parseImpExt C imp) as [err|ext] eqn:Hparse.
  - by eapply shape_cleared_unparsed.
  - destruct (ExtMocktioneer.Bid ext =? 0)%float eqn:Hz; cbn [negb].
    + by eapply shape_cleared_zero.
    + destruct (parseImpExt_finite imp ext HJ Hparse) as [num Hnum].
      rewrite (json_Marshal_upstreamExt_bid _ num Hz Hnum).
      by eapply shape_passthrough.
Qed.

End RequestBuilder.

(** The endpoint chosen by [MakeRequests] is the specified one, and its two
    results are determined by the endpoint and by the encoding of the body. *)
Lemma MakeRequests_results (C : Collaborators) (a : adapter.t C) (req : BidRequest.t) :
  (MakeRequests C a req).2 =
    match resolved_url C a req with
    | inl err => ([], [err])
    | inr url =>
        match json_Marshal_BidRequest C (MakeRequests C a req).1 with
        | inl err => ([], [err])
        | inr body =>
            ([RequestData.mk http_MethodPost url (Some body)
                (getHeaders (MakeRequests C a req).1)
                (GetImpIDs (BidRequest.Imp (MakeRequests C a req).1))], [])
        end
    end.
Proof.
  rewrite MakeRequests_request.
  unfold MakeRequests, resolved_url, endpoint_override.
  rewrite rewriteImps_map.
  destruct (BidRequest.Imp req) as [|imp0 imps] eqn:Himps; cbn [String.eqb].
  - repeat case_match; reflexivity.
  - destruct (parseImpExt C imp0) as [err|ext]; cbn [String.eqb].
    + repeat case_match; reflexivity.
    + destruct (nonempty (ExtMocktioneer.Endpoint ext)) eqn:Hne; cbn [String.eqb].
      * rewrite eqb_empty_nonempty, Hne. cbn [negb].
        repeat case_match; reflexivity.
      * repeat case_match; reflexivity.
Qed.

Lemma getHeaders_frame (C : Collaborators) (a : adapter.t C) (req : BidRequest.t) :
  getHeaders (MakeRequests C a req).1 = getHeaders req.
Proof. rewrite MakeRequests_request. reflexivity. Qed.

Lemma Fixture_json_numbers_finite : json_numbers_finite Fixture.collaborators.
Proof.
  split.
  - intros raw ext. cbn [jsonutil_Unmarshal_ExtMocktioneer Fixture.collaborators].
    unfold Fixture.unmarshal_ExtMocktioneer. intros H.
    repeat case_match; try discriminate; injection H as <-; reflexivity.
  - intros f Hf. cbn [json_Marshal_float64 Fixture.collaborators].
    unfold Fixture.marshal_float64. rewrite Hf. eauto.
Qed.

(** C1: after [MakeRequests], the extension of every line item is the minimal
    payload [{"mocktioneer":{"bid":Bid}}] when its extension parsed and [Bid]
    is not zero, and is cleared otherwise (parse failure, no extension, zero
    [Bid]); in no case is it the bidder-params wrapper it came with. The JSON
    codecs are taken to decode finite numbers only and to encode every
    finite number. *)
Theorem C1_extension_passthrough_or_cleared (C : Collaborators) (a : adapter.t C)
    (req : BidRequest.t) (i : nat) (imp : Imp.t) :
  json_numbers_finite C ->
  BidRequest.Imp req !! i = Some imp ->
  exists imp',
    BidRequest.Imp (MakeRequests C a req).1 !! i = Some imp' /\
    ext_shape C imp (Imp.Ext imp') /\
    (Imp.Ext imp' = None \/ exists num, Imp.Ext imp' = minimal_payload num).
Proof.
  intros HJ Hi. exists (rewriteImpExt C imp).
  rewrite MakeRequests_request. cbn [BidRequest.Imp BidRequest.set_Imp].
  split; [by rewrite list_lookup_fmap, Hi|].
  pose proof (rewriteImpExt_shape C imp HJ) as Hshape.
  split; [exact Hshape|].
  destruct Hshape as [ext num _ _ _ ->|ext _ _ ->|err _ ->]; eauto.
Qed.

Lemma C1_extension_passthrough_or_cleared_witness :
  json_numbers_finite Fixture.collaborators /\
  BidRequest.Imp Fixture.request !! 0%nat = Some Fixture.imp_video /\
  exists imp',
    BidRequest.Imp (MakeRequests Fixture.collaborators Fixture.the_adapter
                      Fixture.request).1 !! 0%nat = Some imp' /\
    ext_shape Fixture.collaborators Fixture.imp_video (Imp.Ext imp') /\
    (Imp.Ext imp' = None \/ exists num, Imp.Ext imp' = minimal_payload num).
Proof.
  split; [exact Fixture_json_numbers_finite|].
  split; [reflexivity|].
  apply (C1_extension_passthrough_or_cleared Fixture.collaborators Fixture.the_adapter
           Fixture.request 0 Fixture.imp_video Fixture_json_numbers_finite).
  reflexivity.
Defined.

(** C9: [MakeRequests] changes nothing of the request but the extensions of
    its line items: their number, every line item apart from its extension
    (so its ID, video and native sub-objects), the device context and the other
    members of the request are as before. *)
Theorem C9_only_extensions_change (C : Collaborators) (a : adapter.t C)
    (req : BidRequest.t) :
  length (BidRequest.Imp (MakeRequests C a req).1) = length (BidRequest.Imp req) /\
  Forall2 (fun imp imp' => imp' = Imp.set_Ext (Imp.Ext imp') imp)
          (BidRequest.Imp req) (BidRequest.Imp (MakeRequests C a req).1) /\
  map Imp.ID (BidRequest.Imp (MakeRequests C a req).1) = map Imp.ID (BidRequest.Imp req) /\
  map Imp.Video (BidRequest.Imp (MakeRequests C a req).1)
    = map Imp.Video (BidRequest.Imp req) /\
  map Imp.Native (BidRequest.Imp (MakeRequests C a req).1)
    = map Imp.Native (BidRequest.Imp req) /\
  BidRequest.Device (MakeRequests C a req).1 = BidRequest.Device req /\
  (MakeRequests C a req).1
    = BidRequest.set_Imp (BidRequest.Imp (MakeRequests C a req).1) req.
Proof.
  rewrite MakeRequests_request. cbn [BidRequest.Imp BidRequest.Device BidRequest.set_Imp].
  assert (Hf : forall (B : Type) (f : Imp.t -> B),
             (forall imp, f (rewriteImpExt C imp) = f imp) ->
             map f (map (rewriteImpExt C) (BidRequest.Imp req))
             = map f (BidRequest.Imp req)).
  { intros B f Hf. rewrite map_map. apply map_ext. exact Hf. }
  assert (Hframe : forall (B : Type) (f : Imp.t -> B),
             (forall ext imp, f (Imp.set_Ext ext imp) = f imp) ->
             forall imp, f (rewriteImpExt C imp) = f imp).
  { intros B f Hset imp. rewrite rewriteImpExt_frame. apply Hset. }
  repeat split.
  - apply length_map.
  - clear Hf. induction (BidRequest.Imp req) as [|imp imps IH];
      cbn [map]; constructor; [apply rewriteImpExt_frame | exact IH].
  - apply Hf, Hframe. reflexivity.
  - apply Hf, Hframe. reflexivity.
  - apply Hf, Hframe. reflexivity.
Qed.

(** C2: the URL of the outbound request is the endpoint override of the first
    line item, verbatim, when the request has a first line item whose extension
    parses with a non-empty [Endpoint]; otherwise it is the configured template
    expanded with the empty parameter set. A request is sent exactly when that
    URL exists and the body can be encoded. *)
Theorem C2_resolved_url (C : Collaborators) (a : adapter.t C) (req : BidRequest.t) :
  map RequestData.Uri (MakeRequests C a req).2.1 =
    match resolved_url C a req, json_Marshal_BidRequest C (MakeRequests C a req).1 with
    | inr url, inr _ => [url]
    | _, _ => []
    end
  /\ resolved_url C a req =
       match BidRequest.Imp req with
       | imp0 :: _ =>
           match parseImpExt C imp0 with
           | inr ext =>
               if nonempty (ExtMocktioneer.Endpoint ext)
               then inr (ExtMocktioneer.Endpoint ext)
               else macros_ResolveMacros C (adapter.endpoint a)
                      (EndpointTemplateParams_zero C)
           | inl _ =>
               macros_ResolveMacros C (adapter.endpoint a) (EndpointTemplateParams_zero C)
           end
       | [] => macros_ResolveMacros C (adapter.endpoint a) (EndpointTemplateParams_zero C)
       end.
Proof.
  split.
  - rewrite MakeRequests_results. repeat case_match; reflexivity.
  - unfold resolved_url, endpoint_override. repeat case_match; congruence.
Qed.

(** The override wins over the configured template, and the template is used
    when the first line item has no override. *)
Example resolved_url_override :
  map RequestData.Uri
      (MakeRequests Fixture.collaborators Fixture.the_adapter Fixture.request_override).2.1
  = [Fixture.override_url].
Proof. reflexivity. Qed.

Example resolved_url_template :
  map RequestData.Uri
      (MakeRequests Fixture.collaborators Fixture.the_adapter Fixture.request).2.1
  = ["https://configured.example/auction"].
Proof. reflexivity. Qed.

(** C6: [MakeRequests] returns either exactly one outbound request and no
    error, or no outbound request and a non-empty list of errors (one error);
    it returns the latter when the expansion of the template fails (which is
    attempted when there is no override) and when the encoding of the body
    fails. *)
Theorem C6_one_request_or_errors (C : Collaborators) (a : adapter.t C)
    (req : BidRequest.t) :
  ((exists r, (MakeRequests C a req).2 = ([r], [])) \/
   (exists err, (MakeRequests C a req).2 = ([], [err]))) /\
  (forall err,
      endpoint_override C req = None ->
      macros_ResolveMacros C (adapter.endpoint a) (EndpointTemplateParams_zero C) = inl err ->
      (MakeRequests C a req).2 = ([], [err])) /\
  (forall err,
      json_Marshal_BidRequest C (MakeRequests C a req).1 = inl err ->
      (MakeRequests C a req).2.1 = [] /\ (MakeRequests C a req).2.2 <> []).
Proof.
  rewrite MakeRequests_results. split; [|split; [|intros err Herr; rewrite Herr; split]].
  - repeat case_match; eauto.
  - intros err Hnone Herr. unfold resolved_url. by rewrite Hnone, Herr.
  - by repeat case_match.
  - by repeat case_match.
Qed.

Example MakeRequests_macro_failure :
  (MakeRequests Fixture.failing_macros (adapter.mk (C := Fixture.failing_macros) "{{.Nope}}")
     Fixture.request).2
  = ([], [CollaboratorError "template: no such field"]).
Proof. reflexivity. Qed.

Example MakeRequests_encoding_failure :
  (MakeRequests Fixture.failing_encoder
     (adapter.mk (C := Fixture.failing_encoder) "https://configured.example/auction")
     Fixture.request).2
  = ([], [CollaboratorError "json: unsupported value"]).
Proof. reflexivity. Qed.

(** C10: for a request without line items, when the configured template
    expands and the body encodes, [MakeRequests] returns exactly one outbound
    request, to the expanded template, covering no line-item ID, and no
    error; the request is left as it was. *)
Theorem C10_no_line_item (C : Collaborators) (a : adapter.t C) (req : BidRequest.t)
    (url body : string) :
  BidRequest.Imp req = [] ->
  macros_ResolveMacros C (adapter.endpoint a) (EndpointTemplateParams_zero C) = inr url ->
  json_Marshal_BidRequest C req = inr body ->
  MakeRequests C a req
  = (req, ([RequestData.mk http_MethodPost url (Some body) (getHeaders req) []], [])).
Proof.
  intros Himp Hurl Hbody.
  assert (Hreq : (MakeRequests C a req).1 = req).
  { rewrite MakeRequests_request, Himp. destruct req; cbn in *. by subst. }
  rewrite (surjective_pairing (MakeRequests C a req)), MakeRequests_results.
  unfold resolved_url, endpoint_override. rewrite Hreq, Himp, Hurl, Hbody. reflexivity.
Qed.

Lemma C10_no_line_item_witness :
  BidRequest.Imp Fixture.request_empty = [] /\
  MakeRequests Fixture.collaborators Fixture.the_adapter Fixture.request_empty
  = (Fixture.request_empty,
     ([RequestData.mk http_MethodPost "https://configured.example/auction"
         (Some "request auction-3") (getHeaders Fixture.request_empty) []], [])).
Proof.
  split; [reflexivity|].
  apply (C10_no_line_item Fixture.collaborators Fixture.the_adapter Fixture.request_empty);
    reflexivity.
Defined.

(** C7: the headers of the outbound request always hold the content type
    [application/json;charset=utf-8], [Accept: application/json] and the
    OpenRTB version marker; with a device context they also hold its
    user-agent when it is not empty, and, under the one key
    [X-Forwarded-For], the IPv6 address and then the IPv4 address, each when
    present, as separate entries; they hold nothing else. *)
Theorem C7_headers (req : BidRequest.t) :
  getHeaders req !! "Content-Type" = Some ["application/json;charset=utf-8"] /\
  getHeaders req !! "Accept" = Some ["application/json"] /\
  getHeaders req !! "X-Openrtb-Version" = Some ["2.5"] /\
  getHeaders req !! "User-Agent" =
    match BidRequest.Device req with
    | Some dev => if nonempty (Device.UA dev) then Some [Device.UA dev] else None
    | None => None
    end /\
  getHeaders req !! "X-Forwarded-For" =
    match BidRequest.Device req with
    | Some dev =>
        match forwarded_for dev with
        | [] => None
        | entries => Some entries
        end
    | None => None
    end /\
  dom (getHeaders req) ⊆
    {["Content-Type"; "Accept"; "X-Openrtb-Version"; "User-Agent"; "X-Forwarded-For"]} /\
  forall (C : Collaborators) (a : adapter.t C),
    Forall (fun r => RequestData.Headers r = getHeaders req) (MakeRequests C a req).2.1.
Proof.
  assert (Hout : forall (C : Collaborators) (a : adapter.t C),
             Forall (fun r => RequestData.Headers r = getHeaders req)
                    (MakeRequests C a req).2.1).
  { intros C a. rewrite MakeRequests_results.
    repeat case_match; repeat constructor. apply getHeaders_frame. }
  set (sent := forall (C : Collaborators) (a : adapter.t C), Forall _ _) in *.
  clearbody sent.
  unfold getHeaders, forwarded_for, Header_Add.
  destruct (BidRequest.Device req) as [dev|].
  - destruct (nonempty (Device.UA dev)), (nonempty (Device.IPv6 dev)),
      (nonempty (Device.IP dev)); cbn [app];
      (repeat split; [reflexivity .. | | exact Hout]);
      rewrite ?dom_insert_L, dom_empty_L; set_unfold; tauto.
  - (repeat split; [reflexivity .. | | exact Hout]);
      rewrite ?dom_insert_L, dom_empty_L; set_unfold; tauto.
Qed.

(** Both addresses of a device are forwarded, under the same key. *)
Example headers_both_addresses :
  getHeaders Fixture.request !! "X-Forwarded-For" = Some ["2001:db8::1"; "192.0.2.1"]
  /\ getHeaders Fixture.request !! "User-Agent" = Some ["Mozilla/5.0"]
  /\ getHeaders Fixture.request_empty !! "X-Forwarded-For" = None.
Proof. repeat split. Qed.

(** ** The response mapper *)

Lemma mediaTypeForImp_spec (impID : string) (imps : list Imp.t) :
  mediaTypeForImp impID imps = media_type_spec impID imps.
Proof.
  unfold media_type_spec.
  induction imps as [|imp imps IH]; [reflexivity|].
  cbn [mediaTypeForImp List.find].
  destruct (String.eqb (Imp.ID imp) impID); [reflexivity | exact IH].
Qed.

(** The loop over the bids of the seat appends one typed bid per bid. *)
Lemma bids_loop (req : BidRequest.t) (bids : list Bid.t) (br : BidderResponse.t) :
  foldl (fun (br : BidderResponse.t) (b : Bid.t) =>
           BidderResponse.set_Bids
             (BidderResponse.Bids br ++
                [TypedBid.mk b (mediaTypeForImp (Bid.ImpID b) (BidRequest.Imp req))])
             br)
        br bids
  = BidderResponse.set_Bids
      (BidderResponse.Bids br ++
         map (fun b => TypedBid.mk b (media_type_spec (Bid.ImpID b) (BidRequest.Imp req)))
             bids)
      br.
Proof.
  revert br. induction bids as [|b bids IH]; intros br; cbn [foldl map].
  - rewrite app_nil_r. by destruct br.
  - rewrite IH, mediaTypeForImp_spec. unfold BidderResponse.set_Bids.
    cbn [BidderResponse.Bids BidderResponse.Currency]. by rewrite <- app_assoc.
Qed.

(** [MakeBids] by status code. *)
Lemma MakeBids_by_status (C : Collaborators) (req : BidRequest.t) (rd : RequestData.t)
    (resp : ResponseData.t) :
  MakeBids C req rd resp =
    if (ResponseData.StatusCode resp =? 204)%Z then (None, [])
    else if (ResponseData.StatusCode resp =? 200)%Z
         then decode_step C req (ResponseData.Body resp)
         else (None, [BadServerResponse
                        ("unexpected status: " +:+ pretty (ResponseData.StatusCode resp))]).
Proof.
  unfold MakeBids, decode_step, http_StatusNoContent, http_StatusOK.
  destruct (ResponseData.StatusCode resp =? 204)%Z; [reflexivity|].
  destruct (ResponseData.StatusCode resp =? 200)%Z; cbn [negb]; [|reflexivity].
  destruct (jsonutil_Unmarshal_BidResponse C (ResponseData.Body resp)) as [err|bidResp];
    [reflexivity|].
  destruct (BidResponse.SeatBid bidResp) as [|sb rest]; [reflexivity|].
  rewrite bids_loop. unfold typed_bids, NewBidderResponseWithBidsCapacity.
  by destruct (String.eqb (BidResponse.Cur bidResp) "").
Qed.

(** C3: [MakeBids] goes by the status code: 204 gives no bid and no error;
    200 goes on to the decoding of the body; any other status gives no bid
    and exactly one server-response error, whose message ends with the
    status code in decimal. *)
Theorem C3_status_machine (C : Collaborators) (req : BidRequest.t) (rd : RequestData.t)
    (resp : ResponseData.t) :
  (ResponseData.StatusCode resp = 204%Z -> MakeBids C req rd resp = (None, [])) /\
  (ResponseData.StatusCode resp = 200%Z ->
   MakeBids C req rd resp = decode_step C req (ResponseData.Body resp)) /\
  (ResponseData.StatusCode resp <> 204%Z ->
   ResponseData.StatusCode resp <> 200%Z ->
   MakeBids C req rd resp
   = (None, [BadServerResponse
               ("unexpected status: " +:+ pretty (ResponseData.StatusCode resp))])).
Proof.
  rewrite MakeBids_by_status. repeat split.
  - by intros ->.
  - by intros ->.
  - intros H204 H200.
    apply Z.eqb_neq in H204 as ->. by apply Z.eqb_neq in H200 as ->.
Qed.

Example MakeBids_status_204 :
  MakeBids Fixture.collaborators Fixture.request
    (RequestData.mk "POST" "" None ∅ []) (ResponseData.mk 204 None)
  = (None, []).
Proof. reflexivity. Qed.

Example MakeBids_status_500 :
  MakeBids Fixture.collaborators Fixture.request
    (RequestData.mk "POST" "" None ∅ []) (ResponseData.mk 500 (Some "two seats"))
  = (None, [BadServerResponse "unexpected status: 500"]).
Proof. reflexivity. Qed.

(** C4: the media type of a typed bid is that of the line item of the request
    with the impression ID of the bid (video with a video sub-object, else
    native with a native sub-object, else banner), and banner when no line
    item has that ID; nothing else of the response enters it. *)
Theorem C4_media_type_from_request :
  (forall (impID : string) (imps : list Imp.t),
      mediaTypeForImp impID imps = media_type_spec impID imps) /\
  (forall (C : Collaborators) (req : BidRequest.t) (rd : RequestData.t)
          (resp : ResponseData.t),
      Forall (fun tb => TypedBid.BidType tb
                        = media_type_spec (Bid.ImpID (TypedBid.Bid tb)) (BidRequest.Imp req))
             (result_bids (MakeBids C req rd resp))).
Proof.
  split; [exact mediaTypeForImp_spec|].
  intros C req rd resp. rewrite MakeBids_by_status. unfold result_bids, decode_step.
  destruct (ResponseData.StatusCode resp =? 204)%Z; [constructor|].
  destruct (ResponseData.StatusCode resp =? 200)%Z; [|constructor].
  destruct (jsonutil_Unmarshal_BidResponse C (ResponseData.Body resp)) as [err|bidResp];
    [constructor|].
  destruct (BidResponse.SeatBid bidResp) as [|sb rest]; [constructor|].
  cbn [fst BidderResponse.Bids]. unfold typed_bids.
  induction (SeatBid.Bid sb) as [|b bids IH]; cbn [map]; constructor;
    [reflexivity | exact IH].
Qed.

Example media_types_of_the_fixture :
  map (fun impID => mediaTypeForImp impID (BidRequest.Imp Fixture.request))
      ["imp-video"; "imp-native"; "imp-banner"; "imp-unknown"]
  = [BidTypeVideo; BidTypeNative; BidTypeBanner; BidTypeBanner].
Proof. reflexivity. Qed.

(** C5: on a status 200, a body that does not decode as a bid response
    gives no bid and exactly one server-response error, for malformed content
    ([invalid JSON]); a body that decodes to a response without seat gives no
    bid and exactly one server-response error, for the empty seat-bid. *)
Theorem C5_decoding_errors (C : Collaborators) (req : BidRequest.t) (rd : RequestData.t)
    (resp : ResponseData.t) :
  ResponseData.StatusCode resp = 200%Z ->
  (forall err,
      jsonutil_Unmarshal_BidResponse C (ResponseData.Body resp) = inl err ->
      MakeBids C req rd resp = (None, [BadServerResponse "invalid JSON"])) /\
  (forall bidResp,
      jsonutil_Unmarshal_BidResponse C (ResponseData.Body resp) = inr bidResp ->
      BidResponse.SeatBid bidResp = [] ->
      MakeBids C req rd resp = (None, [BadServerResponse "empty seatbid"])).
Proof.
  intros Hstatus. rewrite MakeBids_by_status, Hstatus. cbn [Z.eqb Pos.eqb].
  unfold decode_step. split.
  - intros err ->. reflexivity.
  - intros bidResp -> ->. reflexivity.
Qed.

Lemma C5_decoding_errors_witness :
  MakeBids Fixture.collaborators Fixture.request (RequestData.mk "POST" "" None ∅ [])
    (ResponseData.mk 200 (Some "not json"))
  = (None, [BadServerResponse "invalid JSON"])
  /\
  MakeBids Fixture.collaborators Fixture.request (RequestData.mk "POST" "" None ∅ [])
    (ResponseData.mk 200 (Some "no seat"))
  = (None, [BadServerResponse "empty seatbid"]).
Proof.
  split.
  - apply (C5_decoding_errors Fixture.collaborators Fixture.request
             (RequestData.mk "POST" "" None ∅ [])
             (ResponseData.mk 200 (Some "not json")) eq_refl)
      with (err := Fixture.decode_error).
    reflexivity.
  - apply (C5_decoding_errors Fixture.collaborators Fixture.request
             (RequestData.mk "POST" "" None ∅ [])
             (ResponseData.mk 200 (Some "no seat")) eq_refl)
      with (bidResp := Fixture.no_seat); reflexivity.
Defined.

(** C8: on a status 200 whose body decodes to a response with at least one
    seat, the result holds exactly one typed bid per bid of the first seat, in
    the order of that seat; the bids of the other seats are not in it. *)
Theorem C8_first_seat_in_order (C : Collaborators) (req : BidRequest.t)
    (rd : RequestData.t) (resp : ResponseData.t) (bidResp : BidResponse.t)
    (sb : SeatBid.t) (rest : list SeatBid.t) :
  ResponseData.StatusCode resp = 200%Z ->
  jsonutil_Unmarshal_BidResponse C (ResponseData.Body resp) = inr bidResp ->
  BidResponse.SeatBid bidResp = sb :: rest ->
  exists br,
    MakeBids C req rd resp = (Some br, []) /\
    map TypedBid.Bid (BidderResponse.Bids br) = SeatBid.Bid sb /\
    length (BidderResponse.Bids br) = length (SeatBid.Bid sb) /\
    BidderResponse.Bids br = typed_bids req sb.
Proof.
  intros Hstatus Hbody Hseats. rewrite MakeBids_by_status, Hstatus. cbn [Z.eqb Pos.eqb].
  unfold decode_step. rewrite Hbody, Hseats. eexists. split; [reflexivity|].
  cbn [BidderResponse.Bids]. unfold typed_bids.
  rewrite map_map, length_map. cbn [TypedBid.Bid]. by rewrite map_id.
Qed.

Lemma C8_first_seat_in_order_witness :
  exists br,
    MakeBids Fixture.collaborators Fixture.request (RequestData.mk "POST" "" None ∅ [])
      (ResponseData.mk 200 (Some "two seats")) = (Some br, []) /\
    map TypedBid.Bid (BidderResponse.Bids br) = [Fixture.bid1; Fixture.bid2; Fixture.bid3] /\
    length (BidderResponse.Bids br) = 3%nat /\
    BidderResponse.Bids br
    = typed_bids Fixture.request (SeatBid.mk [Fixture.bid1; Fixture.bid2; Fixture.bid3] "first").
Proof.
  apply (C8_first_seat_in_order Fixture.collaborators Fixture.request
           (RequestData.mk "POST" "" None ∅ [])
           (ResponseData.mk 200 (Some "two seats")) Fixture.two_seats
           (SeatBid.mk [Fixture.bid1; Fixture.bid2; Fixture.bid3] "first")
           [SeatBid.mk [Fixture.bid4] "second"]); reflexivity.
Defined.

(** The whole result on the response with two seats: the three bids of the
    first seat, typed after the request, in the currency of the response. *)
Example MakeBids_two_seats :
  MakeBids Fixture.collaborators Fixture.request (RequestData.mk "POST" "" None ∅ [])
    (ResponseData.mk 200 (Some "two seats"))
  = (Some (BidderResponse.mk "EUR"
             [TypedBid.mk Fixture.bid1 BidTypeVideo;
              TypedBid.mk Fixture.bid2 BidTypeBanner;
              TypedBid.mk Fixture.bid3 BidTypeNative]),
     []).
Proof. reflexivity. Qed.

(** ** Further properties of the request builder *)

Lemma nonempty_true (s : string) : nonempty s = true -> s <> "".
Proof. by destruct s. Qed.

(** A request that is sent went to the resolved endpoint. *)
Lemma sent_to_resolved_url (C : Collaborators) (a : adapter.t C) (req : BidRequest.t) :
  Forall (fun r => resolved_url C a req = inr (RequestData.Uri r))
         (MakeRequests C a req).2.1.
Proof.
  rewrite MakeRequests_results.
  destruct (resolved_url C a req) as [err|url]; [constructor|].
  destruct (json_Marshal_BidRequest C (MakeRequests C a req).1); repeat constructor.
Qed.

(** X1: An adapter that [Builder] returns for a configured endpoint sends the
    requests without override to the expansion of the template parsed from
    that endpoint, and from the built-in endpoint when none is configured. *)
Theorem Builder_then_MakeRequests (C : Collaborators) (cfg_Endpoint : string)
    (a : adapter.t C) (req : BidRequest.t) :
  Builder C cfg_Endpoint = inr a ->
  endpoint_override C req = None ->
  template_Parse C (effective_endpoint cfg_Endpoint) = inr (adapter.endpoint a) /\
  Forall (fun r =>
            macros_ResolveMacros C (adapter.endpoint a) (EndpointTemplateParams_zero C)
            = inr (RequestData.Uri r))
         (MakeRequests C a req).2.1.
Proof.
  intros Hbuild Hnone. split.
  - unfold Builder in Hbuild.
    replace (if String.eqb cfg_Endpoint "" then _ else cfg_Endpoint)
      with (effective_endpoint cfg_Endpoint) in Hbuild by (by destruct cfg_Endpoint).
    destruct (template_Parse C (effective_endpoint cfg_Endpoint)) as [err|tmpl];
      [discriminate|].
    by injection Hbuild as <-.
  - pose proof (sent_to_resolved_url C a req) as Hsent.
    unfold resolved_url in Hsent. by rewrite Hnone in Hsent.
Qed.

Lemma Builder_then_MakeRequests_witness :
  Builder Fixture.collaborators ""
  = inr (adapter.mk (C := Fixture.collaborators)
           "https://mocktioneer.edgecompute.app/openrtb2/auction") /\
  map RequestData.Uri
      (MakeRequests Fixture.collaborators
         (adapter.mk (C := Fixture.collaborators)
            "https://mocktioneer.edgecompute.app/openrtb2/auction")
         Fixture.request).2.1
  = ["https://mocktioneer.edgecompute.app/openrtb2/auction"] /\
  Forall (fun r =>
            macros_ResolveMacros Fixture.collaborators
              (adapter.endpoint
                 (adapter.mk (C := Fixture.collaborators)
                    "https://mocktioneer.edgecompute.app/openrtb2/auction"))
              (EndpointTemplateParams_zero Fixture.collaborators)
            = inr (RequestData.Uri r))
         (MakeRequests Fixture.collaborators
            (adapter.mk (C := Fixture.collaborators)
               "https://mocktioneer.edgecompute.app/openrtb2/auction")
            Fixture.request).2.1.
Proof.
  split; [reflexivity|]. split; [reflexivity|].
  apply (Builder_then_MakeRequests Fixture.collaborators "" _ Fixture.request);
    reflexivity.
Defined.

(** X2: [parseImpExt] hides why it failed: whichever decoding failed, and with
    whatever error, it returns the one [BadInput] error; and it succeeds exactly
    when the wrapper decodes and its [bidder] member decodes, to the latter. *)
Theorem parseImpExt_outcomes (C : Collaborators) (imp : Imp.t) :
  (forall err, parseImpExt C imp = inl err -> err = BadInput "ext.bidder not provided") /\
  (forall ext,
      parseImpExt C imp = inr ext <->
      exists wrapper,
        jsonutil_Unmarshal_ExtImpBidder C (Imp.Ext imp) = inr wrapper /\
        jsonutil_Unmarshal_ExtMocktioneer C (ExtImpBidder.Bidder wrapper) = inr ext).
Proof.
  unfold parseImpExt. split.
  - intros err. repeat case_match; congruence.
  - intros ext. split.
    + destruct (jsonutil_Unmarshal_ExtImpBidder C (Imp.Ext imp)) as [e|wrapper];
        [discriminate|].
      intros H. exists wrapper. split; [reflexivity|].
      destruct (jsonutil_Unmarshal_ExtMocktioneer C (ExtImpBidder.Bidder wrapper));
        congruence.
    + intros (wrapper & -> & ->). reflexivity.
Qed.

(** X3: The errors of [parseImpExt] are never returned by [MakeRequests]: an error
    it returns is the error of the expansion of the template or of the
    encoding of the body, whatever the extensions of the line items. *)
Theorem MakeRequests_errors_origin (C : Collaborators) (a : adapter.t C)
    (req : BidRequest.t) :
  Forall (fun err =>
            macros_ResolveMacros C (adapter.endpoint a) (EndpointTemplateParams_zero C)
            = inl err \/
            json_Marshal_BidRequest C (MakeRequests C a req).1 = inl err)
         (MakeRequests C a req).2.2.
Proof.
  rewrite MakeRequests_results. unfold resolved_url.
  destruct (endpoint_override C req) as [url|].
  - destruct (json_Marshal_BidRequest C (MakeRequests C a req).1) as [err|body];
      [|constructor].
    constructor; [by right | constructor].
  - destruct (macros_ResolveMacros C (adapter.endpoint a) (EndpointTemplateParams_zero C))
      as [err|url].
    { constructor; [by left | constructor]. }
    destruct (json_Marshal_BidRequest C (MakeRequests C a req).1) as [err|body];
      [|constructor].
    constructor; [by right | constructor].
Qed.

(** X4: An outbound request is a POST whose body is the encoding of the request
    as rewritten (not as received) and which covers the IDs of all the line
    items of the request, in their order, cleared or not. *)
Theorem MakeRequests_request_data (C : Collaborators) (a : adapter.t C)
    (req : BidRequest.t) :
  Forall (fun r =>
            RequestData.Method r = "POST" /\
            RequestData.ImpIDs r = map Imp.ID (BidRequest.Imp req) /\
            exists body,
              json_Marshal_BidRequest C
                (BidRequest.set_Imp (map (rewriteImpExt C) (BidRequest.Imp req)) req)
              = inr body /\
              RequestData.Body r = Some body)
         (MakeRequests C a req).2.1.
Proof.
  rewrite MakeRequests_results, MakeRequests_request.
  destruct (resolved_url C a req) as [err|url]; [constructor|].
  destruct (json_Marshal_BidRequest C _) as [err|body] eqn:Hbody; repeat constructor.
  - unfold GetImpIDs. cbn [RequestData.ImpIDs BidRequest.Imp BidRequest.set_Imp].
    rewrite map_map. apply map_ext. intros imp. rewrite rewriteImpExt_frame. reflexivity.
  - exists body. split; reflexivity.
Qed.

Example request_data_of_the_fixture :
  map (fun r => (RequestData.Method r, RequestData.Body r, RequestData.ImpIDs r))
      (MakeRequests Fixture.collaborators Fixture.the_adapter Fixture.request).2.1
  = [("POST", Some "request auction-1", ["imp-video"; "imp-banner"; "imp-native"])].
Proof. reflexivity. Qed.

(** X5: With an endpoint override the configured template is not consulted: the
    call does the same for every adapter, and cannot fail on the template. *)
Theorem override_ignores_template (C : Collaborators) (a a' : adapter.t C)
    (req : BidRequest.t) (url : string) :
  endpoint_override C req = Some url ->
  MakeRequests C a req = MakeRequests C a' req /\
  Forall (fun r => RequestData.Uri r = url) (MakeRequests C a req).2.1.
Proof.
  intros Hover.
  assert (Hreq : (MakeRequests C a req).1 = (MakeRequests C a' req).1)
    by (by rewrite !MakeRequests_request).
  split.
  - rewrite (surjective_pairing (MakeRequests C a req)),
      (surjective_pairing (MakeRequests C a' req)).
    rewrite !MakeRequests_results, <- Hreq. unfold resolved_url. by rewrite Hover.
  - pose proof (sent_to_resolved_url C a req) as Hsent.
    unfold resolved_url in Hsent. rewrite Hover in Hsent.
    eapply Forall_impl; [exact Hsent|]. intros r Hr. congruence.
Qed.

Lemma override_ignores_template_witness :
  MakeRequests Fixture.failing_macros (adapter.mk (C := Fixture.failing_macros) "{{.Nope}}")
    Fixture.request_override
  = MakeRequests Fixture.failing_macros (adapter.mk (C := Fixture.failing_macros) "")
      Fixture.request_override /\
  Forall (fun r => RequestData.Uri r = Fixture.override_url)
         (MakeRequests Fixture.failing_macros
            (adapter.mk (C := Fixture.failing_macros) "{{.Nope}}")
            Fixture.request_override).2.1.
Proof.
  apply (override_ignores_template Fixture.failing_macros _ _ Fixture.request_override).
  reflexivity.
Defined.

(** X6: Only the first line item can override the endpoint: two requests with
    the same first line item are sent to the same URL, whatever the
    extensions of their other line items. *)
Theorem override_from_first_line_item_only (C : Collaborators) (a : adapter.t C)
    (req1 req2 : BidRequest.t) (imp0 : Imp.t) (imps1 imps2 : list Imp.t) :
  BidRequest.Imp req1 = imp0 :: imps1 ->
  BidRequest.Imp req2 = imp0 :: imps2 ->
  Forall (fun r1 =>
            Forall (fun r2 => RequestData.Uri r1 = RequestData.Uri r2)
                   (MakeRequests C a req2).2.1)
         (MakeRequests C a req1).2.1.
Proof.
  intros H1 H2.
  assert (Hurl : resolved_url C a req1 = resolved_url C a req2).
  { unfold resolved_url, endpoint_override. by rewrite H1, H2. }
  pose proof (sent_to_resolved_url C a req1) as Hsent1.
  pose proof (sent_to_resolved_url C a req2) as Hsent2.
  eapply Forall_impl; [exact Hsent1|]. intros r1 Hr1.
  eapply Forall_impl; [exact Hsent2|]. intros r2 Hr2. cbn in *. congruence.
Qed.

Lemma override_from_first_line_item_only_witness :
  Forall (fun r1 =>
            Forall (fun r2 => RequestData.Uri r1 = RequestData.Uri r2)
                   (MakeRequests Fixture.collaborators Fixture.the_adapter
                      (BidRequest.mk "auction-5"
                         [Fixture.imp_banner; Fixture.imp_override] None 500)).2.1)
         (MakeRequests Fixture.collaborators Fixture.the_adapter
            (BidRequest.mk "auction-6" [Fixture.imp_banner] None 500)).2.1
  /\
  map RequestData.Uri
      (MakeRequests Fixture.collaborators Fixture.the_adapter
         (BidRequest.mk "auction-5"
            [Fixture.imp_banner; Fixture.imp_override] None 500)).2.1
  = ["https://configured.example/auction"].
Proof.
  split; [|reflexivity].
  apply (override_from_first_line_item_only Fixture.collaborators Fixture.the_adapter
           (BidRequest.mk "auction-6" [Fixture.imp_banner] None 500)
           (BidRequest.mk "auction-5" [Fixture.imp_banner; Fixture.imp_override] None 500)
           Fixture.imp_banner [] [Fixture.imp_override]); reflexivity.
Defined.



(** The headers, key by key. *)
Lemma getHeaders_lookup (req : BidRequest.t) (key : string) :
  getHeaders req !! key =
    if String.eqb key "Content-Type" then Some ["application/json;charset=utf-8"]
    else if String.eqb key "Accept" then Some ["application/json"]
    else if String.eqb key "X-Openrtb-Version" then Some ["2.5"]
    else if String.eqb key "User-Agent" then
      match BidRequest.Device req with
      | Some dev => if nonempty (Device.UA dev) then Some [Device.UA dev] else None
      | None => None
      end
    else if String.eqb key "X-Forwarded-For" then
      match BidRequest.Device req with
      | Some dev => match forwarded_for dev with [] => None | entries => Some entries end
      | None => None
      end
    else None.
Proof.
  repeat match goal with
         | |- context [String.eqb key ?known] =>
             destruct (String.eqb_spec key known) as [->|?];
             [unfold getHeaders, forwarded_for, Header_Add;
              destruct (BidRequest.Device req) as [dev|];
              [destruct (nonempty (Device.UA dev)), (nonempty (Device.IPv6 dev)),
                 (nonempty (Device.IP dev))|]; reflexivity|]
         end.
  unfold getHeaders, Header_Add.
  destruct (BidRequest.Device req) as [dev|];
    [destruct (nonempty (Device.UA dev)), (nonempty (Device.IPv6 dev)),
       (nonempty (Device.IP dev))|];
    rewrite ?lookup_insert_ne by congruence; apply lookup_empty.
Qed.

(** X8: No header is sent with an empty value, and no key holds more than two
    values: the device members are forwarded only when they are not empty. *)
Theorem getHeaders_values (req : BidRequest.t) (key : string) (values : list string) :
  getHeaders req !! key = Some values ->
  Forall (fun value => value <> "") values /\ (0 < length values <= 2)%nat.
Proof.
  rewrite getHeaders_lookup. unfold forwarded_for.
  repeat case_match; intros Hvalues; simplify_eq/=;
    (split; [repeat constructor; by auto using nonempty_true | lia]).
Qed.

Lemma getHeaders_values_witness :
  getHeaders Fixture.request !! "X-Forwarded-For" = Some ["2001:db8::1"; "192.0.2.1"] /\
  Forall (fun value => value <> "") ["2001:db8::1"; "192.0.2.1"] /\
  (0 < length ["2001:db8::1"; "192.0.2.1"] <= 2)%nat.
Proof.
  split; [reflexivity|].
  apply (getHeaders_values Fixture.request "X-Forwarded-For"). reflexivity.
Defined.

(** ** Further properties of the response mapper *)

Lemma media_type_spec_rewritten (C : Collaborators) (impID : string) (imps : list Imp.t) :
  media_type_spec impID (map (rewriteImpExt C) imps) = media_type_spec impID imps.
Proof.
  rewrite <- !mediaTypeForImp_spec.
  induction imps as [|imp imps IH]; [reflexivity|].
  cbn [map mediaTypeForImp]. rewrite IH, (rewriteImpExt_frame C imp). reflexivity.
Qed.

(** X9: The build and map steps compose: [MakeBids] gives the same result on the
    request as [MakeRequests] left it as on the request as it was received,
    and it does not look at the outbound request. *)
Theorem MakeBids_after_MakeRequests (C : Collaborators) (a : adapter.t C)
    (req : BidRequest.t) (rd rd' : RequestData.t) (resp : ResponseData.t) :
  MakeBids C (MakeRequests C a req).1 rd' resp = MakeBids C req rd resp.
Proof.
  rewrite !MakeBids_by_status, MakeRequests_request.
  destruct (ResponseData.StatusCode resp =? 204)%Z; [reflexivity|].
  destruct (ResponseData.StatusCode resp =? 200)%Z; [|reflexivity].
  unfold decode_step.
  destruct (jsonutil_Unmarshal_BidResponse C (ResponseData.Body resp)) as [err|bidResp];
    [reflexivity|].
  destruct (BidResponse.SeatBid bidResp) as [|sb rest]; [reflexivity|].
  do 3 f_equal. unfold typed_bids. apply map_ext. intros b.
  cbn [BidRequest.Imp BidRequest.set_Imp]. by rewrite media_type_spec_rewritten.
Qed.

(** X10: [MakeBids] never returns a result together with an error; without a
    result it returns no error exactly on a 204, and else exactly one error,
    a server-response error. *)
Theorem MakeBids_outcomes (C : Collaborators) (req : BidRequest.t) (rd : RequestData.t)
    (resp : ResponseData.t) :
  (exists br, MakeBids C req rd resp = (Some br, []) /\
              ResponseData.StatusCode resp = 200%Z) \/
  (MakeBids C req rd resp = (None, []) /\ ResponseData.StatusCode resp = 204%Z) \/
  (exists message,
      MakeBids C req rd resp = (None, [BadServerResponse message]) /\
      ResponseData.StatusCode resp <> 204%Z).
Proof.
  rewrite MakeBids_by_status.
  destruct (Z.eqb_spec (ResponseData.StatusCode resp) 204) as [H204|H204];
    [by right; left|].
  destruct (Z.eqb_spec (ResponseData.StatusCode resp) 200) as [H200|H200];
    [|by right; right; eexists].
  unfold decode_step.
  destruct (jsonutil_Unmarshal_BidResponse C (ResponseData.Body resp)) as [err|bidResp];
    [by right; right; eexists|].
  destruct (BidResponse.SeatBid bidResp) as [|sb rest]; [by right; right; eexists|].
  left. by eexists.
Qed.

(** X11: The currency of a result is the currency of the response when it names
    one, and the default currency of a result otherwise. *)
Theorem MakeBids_currency (C : Collaborators) (req : BidRequest.t) (rd : RequestData.t)
    (resp : ResponseData.t) (br : BidderResponse.t) :
  (MakeBids C req rd resp).1 = Some br ->
  exists bidResp,
    jsonutil_Unmarshal_BidResponse C (ResponseData.Body resp) = inr bidResp /\
    BidderResponse.Currency br =
      match BidResponse.Cur bidResp with
      | EmptyString => adapters_defaultCurrency C
      | cur => cur
      end.
Proof.
  rewrite MakeBids_by_status.
  destruct (ResponseData.StatusCode resp =? 204)%Z; [discriminate|].
  destruct (ResponseData.StatusCode resp =? 200)%Z; [|discriminate].
  unfold decode_step.
  destruct (jsonutil_Unmarshal_BidResponse C (ResponseData.Body resp)) as [err|bidResp];
    [discriminate|].
  destruct (BidResponse.SeatBid bidResp) as [|sb rest]; [discriminate|].
  cbn [fst]. intros [= <-]. exists bidResp. split; [reflexivity|].
  cbn [BidderResponse.Currency]. by destruct (BidResponse.Cur bidResp).
Qed.

Lemma MakeBids_currency_witness :
  (exists bidResp,
      jsonutil_Unmarshal_BidResponse Fixture.collaborators (Some "two seats") = inr bidResp /\
      "EUR" = match BidResponse.Cur bidResp with
              | EmptyString => adapters_defaultCurrency Fixture.collaborators
              | cur => cur
              end) /\
  (exists bidResp,
      jsonutil_Unmarshal_BidResponse FixtureEdge.collaborators (Some "empty first seat")
      = inr bidResp /\
      "USD" = match BidResponse.Cur bidResp with
              | EmptyString => adapters_defaultCurrency FixtureEdge.collaborators
              | cur => cur
              end).
Proof.
  split.
  - apply (MakeBids_currency Fixture.collaborators Fixture.request
             (RequestData.mk "POST" "" None ∅ [])
             (ResponseData.mk 200 (Some "two seats"))
             (BidderResponse.mk "EUR"
                [TypedBid.mk Fixture.bid1 BidTypeVideo;
                 TypedBid.mk Fixture.bid2 BidTypeBanner;
                 TypedBid.mk Fixture.bid3 BidTypeNative])).
    reflexivity.
  - apply (MakeBids_currency FixtureEdge.collaborators Fixture.request
             (RequestData.mk "POST" "" None ∅ [])
             (ResponseData.mk 200 (Some "empty first seat"))
             (BidderResponse.mk "USD" [])).
    reflexivity.
Defined.

(** X12: A first seat without bid is a success without bid, not the empty
    seat-bid error, whatever the seats after it hold. *)
Theorem MakeBids_empty_first_seat (C : Collaborators) (req : BidRequest.t)
    (rd : RequestData.t) (resp : ResponseData.t) (bidResp : BidResponse.t)
    (sb : SeatBid.t) (rest : list SeatBid.t) :
  ResponseData.StatusCode resp = 200%Z ->
  jsonutil_Unmarshal_BidResponse C (ResponseData.Body resp) = inr bidResp ->
  BidResponse.SeatBid bidResp = sb :: rest ->
  SeatBid.Bid sb = [] ->
  exists currency, MakeBids C req rd resp = (Some (BidderResponse.mk currency []), []).
Proof.
  intros Hstatus Hbody Hseats Hbids.
  rewrite MakeBids_by_status, Hstatus. cbn [Z.eqb Pos.eqb].
  unfold decode_step, typed_bids. rewrite Hbody, Hseats, Hbids. by eexists.
Qed.

Lemma MakeBids_empty_first_seat_witness :
  exists currency,
    MakeBids FixtureEdge.collaborators Fixture.request (RequestData.mk "POST" "" None ∅ [])
      (ResponseData.mk 200 (Some "empty first seat"))
    = (Some (BidderResponse.mk currency []), []).
Proof.
  apply (MakeBids_empty_first_seat FixtureEdge.collaborators Fixture.request
           (RequestData.mk "POST" "" None ∅ [])
           (ResponseData.mk 200 (Some "empty first seat"))
           FixtureEdge.empty_first_seat (SeatBid.mk [] "first")
           [SeatBid.mk [Fixture.bid4] "second"]); reflexivity.
Defined.

(** X13: When several line items have the ID of a bid, the first of them decides
    the media type; the ones after it do not count. *)
Theorem mediaTypeForImp_first_match (impID : string) (before after : list Imp.t)
    (imp : Imp.t) :
  Forall (fun other => Imp.ID other <> impID) before ->
  Imp.ID imp = impID ->
  mediaTypeForImp impID (before ++ imp :: after) = media_type_of imp.
Proof.
  intros Hbefore Hid.
  induction Hbefore as [|other before Hother _ IH]; cbn [app mediaTypeForImp].
  - apply String.eqb_eq in Hid as ->. reflexivity.
  - apply String.eqb_neq in Hother as ->. exact IH.
Qed.

Lemma mediaTypeForImp_first_match_witness :
  mediaTypeForImp "dup"
    ([Fixture.imp_banner] ++ FixtureEdge.imp_dup_native :: [FixtureEdge.imp_dup_video])
  = BidTypeNative.
Proof.
  apply (mediaTypeForImp_first_match "dup" [Fixture.imp_banner]
           [FixtureEdge.imp_dup_video] FixtureEdge.imp_dup_native).
  - repeat constructor. discriminate.
  - reflexivity.
Defined.
